(** * AI Detection Service (ai-service/main.py): a shallow embedding

    The service is a FastAPI skeleton with three routes:
    [health_check], [detect_objects] and [analyze_stream].  The handlers
    read the UTC clock, draw random bytes for a UUID and log through
    structlog; they keep no other state.  The embedding threads these
    effects through an explicit [World], and an exception is a value:
    a call returns or it raises.

    Text: a [string] stands for the Python [str] with the same
    characters, one [ascii] per code point (so for text whose code
    points are below 256); [String.length] is Python's [len]. *)

From Stdlib Require Import ZArith String Ascii List DecimalString Lia.
From Stdlib Require Import Floats.
From stdpp Require Import base strings list gmap.
Import ListNotations.

Local Open Scope string_scope.

(** ** Python values that cross the handler boundary *)

(** What a structured log field or a plain [dict] entry can hold here. *)
Inductive PyValue :=
| PyNone
| PyBool (b : bool)
| PyStr (s : string)
| PyStrList (l : list string).

(** [Optional[str]] passed as a keyword to the logger. *)
Definition py_of_opt (o : option string) : PyValue :=
  match o with
  | Some s => PyStr s
  | None => PyNone
  end.

(** [x is not None] *)
Definition is_not_None {A} (o : option A) : bool :=
  match o with
  | Some _ => true
  | None => false
  end.

(** ** String helpers: slicing and C-style formatting *)

Module PyStr.

(** [s[:n]] *)
Definition take (n : nat) (s : string) : string := substring 0 n s.

(** [s[a:b]] for [a <= b] *)
Definition slice (a b : nat) (s : string) : string := substring a (b - a) s.

(** [s[a:]] *)
Definition from (a : nat) (s : string) : string :=
  substring a (String.length s - a) s.

Fixpoint zeros (k : nat) : string :=
  match k with
  | O => ""
  | S k' => String "0" (zeros k')
  end.

(** ['%d' % n] for a non-negative [n] *)
Definition decimal (n : N) : string := NilZero.string_of_uint (N.to_uint n).

(** ['%0<width>d' % n]: at least [width] digits, padded on the left. *)
Definition zpad (width : nat) (n : N) : string :=
  let d := decimal n in
  zeros (width - String.length d) +:+ d.

Definition hexdigit (n : Z) : ascii :=
  match n with
  | 0%Z => "0" | 1%Z => "1" | 2%Z => "2" | 3%Z => "3"
  | 4%Z => "4" | 5%Z => "5" | 6%Z => "6" | 7%Z => "7"
  | 8%Z => "8" | 9%Z => "9" | 10%Z => "a" | 11%Z => "b"
  | 12%Z => "c" | 13%Z => "d" | 14%Z => "e" | _ => "f"
  end%char.

(** ['%0<digits>x' % v] for [0 <= v < 16 ^ digits]: nibble [digits - 1]
    first, nibble [0] last. *)
Fixpoint hex_fixed (digits : nat) (v : Z) : string :=
  match digits with
  | O => ""
  | S k => String (hexdigit (Z.land (Z.shiftr v (4 * Z.of_nat k)) 15))
                  (hex_fixed k v)
  end.

End PyStr.

(** ** [datetime] and [uuid] from the Python standard library *)

Record datetime := {
  year : N; month : N; day : N;
  hour : N; minute : N; second : N;
  microsecond : N
}.

(** [datetime.isoformat()] with the default separator and
    [timespec='auto']: the fraction is printed only when it is not zero. *)
Definition isoformat (d : datetime) : string :=
  let date := PyStr.zpad 4 (year d) +:+ "-" +:+ PyStr.zpad 2 (month d)
              +:+ "-" +:+ PyStr.zpad 2 (day d) in
  let time := PyStr.zpad 2 (hour d) +:+ ":" +:+ PyStr.zpad 2 (minute d)
              +:+ ":" +:+ PyStr.zpad 2 (second d) in
  if (microsecond d =? 0)%N
  then date +:+ "T" +:+ time
  else date +:+ "T" +:+ time +:+ "." +:+ PyStr.zpad 6 (microsecond d).

Module UUID.

(** [UUID(bytes=os.urandom(16), version=4).int]: the random 128 bits
    with the RFC 4122 variant and the version nibble forced. *)
Definition of_random (r : Z) : Z :=
  let i := (r mod 2 ^ 128)%Z in
  let i := Z.land i (Z.lnot (Z.shiftl 0xc000 48)) in
  let i := Z.lor i (Z.shiftl 0x8000 48) in
  let i := Z.land i (Z.lnot (Z.shiftl 0xf000 64)) in
  Z.lor i (Z.shiftl 4 76).

(** [str(uuid)]: 8-4-4-4-12 lower-case hexadecimal digits. *)
Definition to_str (i : Z) : string :=
  let hex := PyStr.hex_fixed 32 i in
  PyStr.take 8 hex +:+ "-" +:+ PyStr.slice 8 12 hex +:+ "-"
    +:+ PyStr.slice 12 16 hex +:+ "-" +:+ PyStr.slice 16 20 hex +:+ "-"
    +:+ PyStr.from 20 hex.

End UUID.

(** ** The world the handlers run in *)

(** One [logger.info(event, **fields)] line. *)
Record LogEvent := {
  event : string;
  fields : list (string * PyValue)
}.

(** The clock and the entropy source are oracles indexed by the number of
    reads made so far; the log is the list of lines written so far. *)
Record World := {
  utc_clock : nat -> datetime;
  clock_reads : nat;
  urandom : nat -> Z;
  urandom_reads : nat;
  log : list LogEvent
}.

(** A computation with effects on the world. *)
Definition IO (A : Type) : Type := World -> A * World.

Definition ret {A} (a : A) : IO A := fun w => (a, w).

Definition bind {A B} (m : IO A) (k : A -> IO B) : IO B :=
  fun w => let (a, w') := m w in k a w'.

Notation "'let*' x ':=' m 'in' k" := (bind m (fun x => k))
  (at level 10, x name, m at level 100, k at level 200).

(** [datetime.utcnow()] *)
Definition utcnow : IO datetime := fun w =>
  (utc_clock w (clock_reads w),
   {| utc_clock := utc_clock w; clock_reads := S (clock_reads w);
      urandom := urandom w; urandom_reads := urandom_reads w;
      log := log w |}).

(** [uuid.uuid4()] *)
Definition uuid4 : IO Z := fun w =>
  (UUID.of_random (urandom w (urandom_reads w)),
   {| utc_clock := utc_clock w; clock_reads := clock_reads w;
      urandom := urandom w; urandom_reads := S (urandom_reads w);
      log := log w |}).

(** ** Returning and raising *)

(** What a call can raise: the error kinds of the error taxonomy, none of
    which [main.py] raises, and Python's [AttributeError]. *)
Inductive ApiError :=
| ValidationError
| ConflictError
| CapacityExceeded
| StreamUnavailable
| InferenceError
| DeliveryError
| AttributeError.

Inductive Outcome (A : Type) :=
| Returned (a : A)
| Raised (e : ApiError).
Arguments Returned {A} a.
Arguments Raised {A} e.

(** Sequencing that stops at the first exception. *)
Notation "'let?' x ':=' m 'in' k" :=
  (bind m (fun outcome => match outcome with
                          | Returned x => k
                          | Raised e => ret (Raised e)
                          end))
  (at level 10, x name, m at level 100, k at level 200).

(** ** Logging (structlog) *)

(** The processors that [structlog.configure] is given, in order. *)
Inductive Processor :=
| add_log_level
| add_logger_name
| TimeStamper_iso
| JSONRenderer.

Definition configured_processors : list Processor :=
  [add_log_level; add_logger_name; TimeStamper_iso; JSONRenderer].

(** [event_dict[key] = value]: the entry is replaced where the key is
    present and added at the end where it is not. *)
Fixpoint dict_set (key : string) (value : PyValue)
    (event_dict : list (string * PyValue)) : list (string * PyValue) :=
  match event_dict with
  | [] => [(key, value)]
  | (k, v) :: rest =>
      if String.eqb k key then (k, value) :: rest
      else (k, v) :: dict_set key value rest
  end.

(** One processor at work on the event dictionary.  [configure] names no
    logger factory, so [structlog.get_logger()] wraps structlog's default
    [PrintLogger]; [add_logger_name] reads [logger.name], an attribute a
    [PrintLogger] does not have, and raises [AttributeError].  The two
    processors after it stamp the UTC time and render the dictionary as
    the line to print. *)
Definition run_processor (p : Processor) (method_name : string)
    (event_dict : list (string * PyValue))
  : IO (Outcome (list (string * PyValue))) :=
  match p with
  | add_log_level =>
      ret (Returned
             (dict_set "level"
                (PyStr (if String.eqb method_name "warn" then "warning"
                        else method_name))
                event_dict))
  | add_logger_name => ret (Raised AttributeError)
  | TimeStamper_iso =>
      let* now := utcnow in
      ret (Returned
             (dict_set "timestamp" (PyStr (isoformat now +:+ "Z"))
                       event_dict))
  | JSONRenderer => ret (Returned event_dict)
  end.

(** The chain: each processor gets the dictionary the one before it
    returned; an exception ends the chain. *)
Fixpoint run_processors (ps : list Processor) (method_name : string)
    (event_dict : list (string * PyValue))
  : IO (Outcome (list (string * PyValue))) :=
  match ps with
  | [] => ret (Returned event_dict)
  | p :: rest =>
      let? processed := run_processor p method_name event_dict in
      run_processors rest method_name processed
  end.

(** The wrapped logger prints the rendered line. *)
Definition print_line (line : LogEvent) : IO (Outcome unit) := fun w =>
  (Returned tt,
   {| utc_clock := utc_clock w; clock_reads := clock_reads w;
      urandom := urandom w; urandom_reads := urandom_reads w;
      log := (log w ++ [line])%list |}).

(** [logger.info(ev, **kv)]: the keywords and then the event name make
    the event dictionary; it goes through the configured processors, and
    what they return is printed. *)
Definition logger_info (ev : string) (kv : list (string * PyValue))
  : IO (Outcome unit) :=
  let? processed :=
    run_processors configured_processors "info"
                   (dict_set "event" (PyStr ev) kv) in
  print_line {| event := ev; fields := processed |}.

(** ** Models (pydantic) *)

Record HealthResponse := {
  status : string;
  timestamp : string;
  version : string
}.

Record DetectionRequest := {
  image_url : option string;
  image_base64 : option string;
  camera_id : option string;
  detection_types : list string
}.

(** [Field(default=[...])] of [detection_types]. *)
Definition default_detection_types : list string :=
  ["person"; "vehicle"; "weapon"].

(** Building a [DetectionRequest] from the fields a caller supplies: each
    of the three optional strings defaults to [None], the label list to
    [default_detection_types].  The model declares no validator. *)
Definition DetectionRequest_init (url b64 cam : option string)
    (types : option (list string)) : DetectionRequest :=
  {| image_url := url;
     image_base64 := b64;
     camera_id := cam;
     detection_types := match types with
                        | Some l => l
                        | None => default_detection_types
                        end |}.

Record Detection := {
  type : string;
  confidence : float;
  bbox : list float;
  metadata : gmap string PyValue
}.

Record DetectionResponse := {
  success : bool;
  detections : list Detection;
  processing_time_ms : float;
  frame_id : option string
}.

(** ** Routes *)

(** [GET /health] *)
Definition health_check : IO (Outcome HealthResponse) :=
  let* now := utcnow in
  ret (Returned {| status := "healthy";
                   timestamp := isoformat now +:+ "Z";
                   version := "0.1.0" |}).

(** [POST /detect].  The log call comes first: when it raises, no UUID is
    drawn and no response is built. *)
Definition detect_objects (request : DetectionRequest)
  : IO (Outcome DetectionResponse) :=
  let? _logged := logger_info "detection_requested"
      [("camera_id", py_of_opt (camera_id request));
       ("detection_types", PyStrList (detection_types request));
       ("has_image_url", PyBool (is_not_None (image_url request)));
       ("has_image_base64", PyBool (is_not_None (image_base64 request)))] in
  let* fid := uuid4 in
  ret (Returned {| success := true;
                   detections := [];
                   processing_time_ms := 0%float;
                   frame_id := Some (UUID.to_str fid) |}).

(** [POST /analyze-stream]; the handler returns a plain [dict]. *)
Definition analyze_stream (camera_id stream_url : string)
  : IO (Outcome (gmap string PyValue)) :=
  let? _logged := logger_info "stream_analysis_requested"
      [("camera_id", PyStr camera_id);
       ("stream_url",
        PyStr (if (50 <? String.length stream_url)%nat
               then PyStr.take 50 stream_url +:+ "..."
               else stream_url))] in
  ret (Returned
         (<["success" := PyBool true]>
          (<["message" :=
               PyStr "Stream analysis not implemented yet. Coming in Slice 12."]>
           (<["camera_id" := PyStr camera_id]> ∅)))).

(** ** Sample inputs *)

Definition new_year : datetime :=
  {| year := 2025; month := 1; day := 1;
     hour := 0; minute := 0; second := 0; microsecond := 0 |}.

Definition afternoon : datetime :=
  {| year := 2024; month := 11; day := 5;
     hour := 13; minute := 7; second := 42; microsecond := 1500 |}.

Definition world0 : World :=
  {| utc_clock := fun n => if Nat.even n then new_year else afternoon;
     clock_reads := 0;
     urandom := fun n => (Z.of_nat n * 0x9e3779b97f4a7c15f39cc0605cedc834 + 7)%Z;
     urandom_reads := 0;
     log := [] |}.

(** A 1x1-pixel PNG, base64-encoded. *)
Definition pixel_png_base64 : string :=
  "iVBORw0KGgoAAAANSUhEUgAAAAEAAAABCAYAAAAfFcSJAAAADUlEQVR42mNk+M9QDwADhgGAWjR9awAAAABJRU5ErkJggg==".

(** ** Calling the handlers *)

(** A call of one of the three handlers, made directly, as a test of the
    handler makes it: the middlewares of the HTTP stack are not part of
    it. *)

Inductive Call :=
| Health
| Detect (request : DetectionRequest)
| AnalyzeStream (camera_id stream_url : string).

Inductive Reply :=
| HealthReply (r : Outcome HealthResponse)
| DetectReply (r : Outcome DetectionResponse)
| StreamReply (r : Outcome (gmap string PyValue)).

Definition dispatch (c : Call) : IO Reply :=
  match c with
  | Health => let* r := health_check in ret (HealthReply r)
  | Detect request => let* r := detect_objects request in ret (DetectReply r)
  | AnalyzeStream cam url =>
      let* r := analyze_stream cam url in ret (StreamReply r)
  end.

Fixpoint serve (cs : list Call) : IO (list Reply) :=
  match cs with
  | [] => ret []
  | c :: rest =>
      let* r := dispatch c in
      let* rs := serve rest in
      ret (r :: rs)
  end.

(** A burst of work: sixty-four detection requests and eight stream
    starts, none of them ever stopped. *)
Definition burst : list Call :=
  (repeat (Detect (DetectionRequest_init None (Some pixel_png_base64)
                                         (Some "cam-1") None)) 64
   ++ map (fun n => AnalyzeStream ("cam-" +:+ PyStr.decimal (N.of_nat n))
                                  "rtsp://10.0.0.7/live")
          (seq 0 8))%list.

(** A reply with the two fields that are fresh on every call blanked:
    the health timestamp and the detection frame id. *)
Definition redact (r : Reply) : Reply :=
  match r with
  | HealthReply (Returned h) =>
      HealthReply (Returned {| status := status h; timestamp := "";
                               version := version h |})
  | DetectReply (Returned d) =>
      DetectReply (Returned {| success := success d;
                               detections := detections d;
                               processing_time_ms := processing_time_ms d;
                               frame_id := None |})
  | other => other
  end.

(** ** Predicates on detections *)

Definition confidence_ok (d : Detection) : bool :=
  PrimFloat.leb 0 (confidence d) && PrimFloat.leb (confidence d) 1.

(** The box [x, y, width, height] lies inside a frame of the given size. *)
Definition bbox_within (frame_w frame_h : float) (d : Detection) : bool :=
  match bbox d with
  | [x; y; bw; bh] =>
      PrimFloat.leb 0 x && PrimFloat.leb 0 y
      && PrimFloat.leb (x + bw) frame_w && PrimFloat.leb (y + bh) frame_h
  | _ => false
  end.

Definition sample_detection (conf : float) (box : list float) : Detection :=
  {| type := "person"; confidence := conf; bbox := box; metadata := ∅ |}.

(** Whether a label list has a repeated entry. *)
Fixpoint has_duplicate (l : list string) : bool :=
  match l with
  | [] => false
  | x :: rest => existsb (String.eqb x) rest || has_duplicate rest
  end.

(** The detections a call of the detect operation hands back: those of
    its response, none when it raised. *)
Definition returned_detections (o : Outcome DetectionResponse)
  : list Detection :=
  match o with
  | Returned resp => detections resp
  | Raised _ => []
  end.

(** ** Stream session manager *)

Module SessionManager.

(** Modelled from the spec: the lifecycle states of a stream session
    (section 4.3).  [main.py] declares no session type. *)
Inductive Lifecycle := Starting | Running | Draining | Stopped | Failed.

(** Modelled from the spec: the StreamSession record of the data model,
    which [main.py] lacks; the camera id is the key of the registry. *)
Record StreamSession := {
  locator : string;
  interval_ms : N;
  state : Lifecycle;
  last_seq : N;
  in_flight : nat;
  handle_open : bool
}.

(** Modelled from the spec: the first step of stopSession, Running or
    Starting to Draining; absent from [main.py]. *)
Definition drain (s : StreamSession) : StreamSession :=
  {| locator := locator s; interval_ms := interval_ms s;
     state := Draining; last_seq := last_seq s;
     in_flight := in_flight s; handle_open := handle_open s |}.

(** Modelled from the spec: the last step of stopSession, once the
    frames in flight have completed: Stopped, with the adapter handle
    released; absent from [main.py]. *)
Definition release (s : StreamSession) : StreamSession :=
  {| locator := locator s; interval_ms := interval_ms s;
     state := Stopped;
     last_seq := (last_seq s + N.of_nat (in_flight s))%N;
     in_flight := 0; handle_open := false |}.

(** Modelled from the spec: stopSession of section 4.3 and the
    stop-stream operation of section 6, for which [main.py] has no
    route.  A camera without a session, or with a stopped one, leaves
    the registry as it is. *)
Definition stopSession (cam : string) (reg : gmap string StreamSession)
  : Outcome bool * gmap string StreamSession :=
  match reg !! cam with
  | None => (Returned true, reg)
  | Some s =>
      match state s with
      | Stopped => (Returned true, reg)
      | Starting | Running => (Returned true, <[cam := release (drain s)]> reg)
      | Draining | Failed => (Returned true, <[cam := release s]> reg)
      end
  end.

End SessionManager.

(** A camera that is running with three frames in flight, and a
    registry that holds only this camera. *)
Definition running_session : SessionManager.StreamSession :=
  {| SessionManager.locator := "rtsp://10.0.0.7/live";
     SessionManager.interval_ms := 500;
     SessionManager.state := SessionManager.Running;
     SessionManager.last_seq := 41;
     SessionManager.in_flight := 3;
     SessionManager.handle_open := true |}.

Definition one_camera : gmap string SessionManager.StreamSession :=
  <["cam-1" := running_session]> ∅.

(** ** The characters of a UUID text *)

(** Hexadecimal digits as [str(uuid)] prints them. *)
Definition is_hex_lower (c : ascii) : bool :=
  let n := nat_of_ascii c in
  ((48 <=? n)%nat && (n <=? 57)%nat) || ((97 <=? n)%nat && (n <=? 102)%nat).

(** The hexadecimal digit for bits [4k] to [4k + 3] of a UUID. *)
Definition uuid_nibble (v : Z) (k : nat) : ascii :=
  PyStr.hexdigit (Z.land (Z.shiftr v (4 * Z.of_nat k)) 15).

(** The 36 characters of [str(uuid)], given the digit of each nibble:
    nibbles 31 down to 0, with a hyphen after 8, 12, 16 and 20 digits. *)
Definition uuid_text (h : nat -> ascii) : string :=
  (String (h 31) (String (h 30) (String (h 29)
    (String (h 28) (String (h 27) (String (h 26)
    (String (h 25) (String (h 24) (String "-"
    (String (h 23) (String (h 22) (String (h 21)
    (String (h 20) (String "-" (String (h 19)
    (String (h 18) (String (h 17) (String (h 16)
    (String "-" (String (h 15) (String (h 14)
    (String (h 13) (String (h 12) (String "-"
    (String (h 11) (String (h 10) (String (h 9)
    (String (h 8) (String (h 7) (String (h 6)
    (String (h 5) (String (h 4) (String (h 3)
    (String (h 2) (String (h 1) (String (h 0)
    ""))))))))))))))))))))))))))))))))))))%string.

(** Whether [c] may stand at position [i] of the text of a version-4
    UUID: a hyphen at 8, 13, 18 and 23, the version digit 4 at 14, one
    of 8, 9, a, b at 19, a lower-case hexadecimal digit elsewhere. *)
Definition uuid4_char_ok (i : nat) (c : ascii) : bool :=
  if existsb (Nat.eqb i) [8; 13; 18; 23] then Ascii.eqb c "-"
  else if Nat.eqb i 14 then Ascii.eqb c "4"
  else if Nat.eqb i 19
       then existsb (Ascii.eqb c) ["8"; "9"; "a"; "b"]%char
       else is_hex_lower c.

Fixpoint uuid4_chars_from (i : nat) (s : string) : bool :=
  match s with
  | "" => true
  | String c rest => uuid4_char_ok i c && uuid4_chars_from (S i) rest
  end.

(** The text of a version-4 UUID: 36 characters, each one allowed at its
    position. *)
Definition is_uuid4_text (s : string) : bool :=
  Nat.eqb (String.length s) 36 && uuid4_chars_from 0 s.

(** ** Startup and shutdown *)

(** [startup_event] *)
Definition startup_event : IO (Outcome unit) :=
  logger_info "ai_service_starting" [("version", PyStr "0.1.0")].

(** [shutdown_event] *)
Definition shutdown_event : IO (Outcome unit) :=
  logger_info "ai_service_shutting_down" [].

(** ** Correlation-id middleware *)

Module Http.

(** A request as the middleware sees it.  Header names are the lower-case
    names of the ASGI scope and map to the header's value;
    [state] is [request.state]. *)
Record Request := {
  method : string;
  path : string;
  headers : gmap string string;
  state : gmap string string
}.

Record Response := {
  status_code : Z;
  response_headers : gmap string string;
  body : string
}.

(** [request.state.correlation_id = cid] *)
Definition set_correlation_id (cid : string) (request : Request) : Request :=
  {| method := method request; path := path request;
     headers := headers request;
     state := <["correlation_id" := cid]> (state request) |}.

(** [response.headers["x-correlation-id"] = cid] *)
Definition set_header (name value : string) (response : Response) : Response :=
  {| status_code := status_code response;
     response_headers := <[name := value]> (response_headers response);
     body := body response |}.

(** [correlation_id_middleware].  The default of [headers.get] is an
    argument, so [uuid.uuid4()] runs before the lookup, on every
    request. *)
Definition correlation_id_middleware (request : Request)
    (call_next : Request -> IO Response) : IO Response :=
  let* fresh := uuid4 in
  let correlation_id :=
    default (UUID.to_str fresh) (headers request !! "x-correlation-id") in
  let* response := call_next (set_correlation_id correlation_id request) in
  ret (set_header "x-correlation-id" correlation_id response).

(** An endpoint that answers with the correlation id it finds in
    [request.state], or with an empty body when there is none. *)
Definition echo_state (request : Request) : IO Response :=
  ret {| status_code := 200; response_headers := ∅;
         body := default "" (state request !! "correlation_id") |}.

End Http.

(** ** Configuration from the environment *)

Module Config.

(** [os.getenv(key, default)] *)
Definition getenv (env : gmap string string) (key fallback : string) : string :=
  default fallback (env !! key).

(** [s.split(",")] *)
Fixpoint split_comma (s : string) : list string :=
  match s with
  | "" => [""]
  | String c rest =>
      if Ascii.eqb c ","
      then "" :: split_comma rest
      else match split_comma rest with
           | part :: parts => String c part :: parts
           | [] => [String c ""]
           end
  end.

(** [",".join(parts)] *)
Fixpoint join_comma (parts : list string) : string :=
  match parts with
  | [] => ""
  | [part] => part
  | part :: rest => part +:+ "," +:+ join_comma rest
  end.

(** Whether a string has a comma in it. *)
Fixpoint has_comma (s : string) : bool :=
  match s with
  | "" => false
  | String c rest => Ascii.eqb c "," || has_comma rest
  end.

(** How many commas a string has. *)
Fixpoint count_commas (s : string) : nat :=
  match s with
  | "" => 0
  | String c rest => (if Ascii.eqb c "," then 1 else 0) + count_commas rest
  end.

(** [allow_origins=os.getenv("CORS_ORIGINS", "*").split(",")] *)
Definition cors_allow_origins (env : gmap string string) : list string :=
  split_comma (getenv env "CORS_ORIGINS" "*").

(** [c.lower()] for one character: the letters A to Z move to a to z,
    every other character stays.  Python also moves letters outside
    ASCII, none of them to t, r, u or e. *)
Definition lower_char (c : ascii) : ascii :=
  let n := nat_of_ascii c in
  if (65 <=? n)%nat && (n <=? 90)%nat then ascii_of_nat (n + 32) else c.

(** [s.lower()] *)
Fixpoint lower (s : string) : string :=
  match s with
  | "" => ""
  | String c rest => String (lower_char c) (lower rest)
  end.

(** [reload=os.getenv("RELOAD", "true").lower() == "true"] *)
Definition uvicorn_reload (env : gmap string string) : bool :=
  String.eqb (lower (getenv env "RELOAD" "true")) "true".

End Config.


Definition traced_request : Http.Request :=
  {| Http.method := "POST"; Http.path := "/detect";
     Http.headers := <["x-correlation-id" := "req-42"]> ∅;
     Http.state := ∅ |}.

Definition untraced_request : Http.Request :=
  {| Http.method := "GET"; Http.path := "/health";
     Http.headers := <["accept" := "application/json"]> ∅;
     Http.state := ∅ |}.

(** Two worlds whose next entropy readings differ only in a bit that
    [uuid4] overwrites. *)
Definition world_zero_bits : World :=
  {| utc_clock := fun _ => new_year; clock_reads := 0;
     urandom := fun _ => 0%Z; urandom_reads := 0; log := [] |}.

Definition world_variant_bit : World :=
  {| utc_clock := fun _ => afternoon; clock_reads := 0;
     urandom := fun _ => (2 ^ 62)%Z; urandom_reads := 0; log := [] |}.

(** * Properties *)

(** ** Strings *)

Section StringFacts.

Lemma length_append (s t : string) :
  String.length (s +:+ t) = String.length s + String.length t.
Proof. induction s as [|c s IH]; simpl; [reflexivity | now rewrite IH]. Qed.

Lemma length_substring (s : string) : forall a n,
  a + n <= String.length s -> String.length (substring a n s) = n.
Proof.
  induction s as [|c s IH]; intros a n Hle; simpl in Hle.
  - destruct a, n; simpl; lia.
  - destruct a as [|a]; simpl.
    + destruct n as [|n]; simpl; [reflexivity|].
      rewrite (IH 0 n); [reflexivity | lia].
    + apply IH. lia.
Qed.

Lemma length_hex_fixed (v : Z) (digits : nat) :
  String.length (PyStr.hex_fixed digits v) = digits.
Proof. induction digits as [|k IH]; simpl; [reflexivity | now rewrite IH]. Qed.

Lemma append_nonempty_r (s t : string) : t <> "" -> s +:+ t <> "".
Proof.
  intros Ht Hst. apply (f_equal String.length) in Hst.
  rewrite length_append in Hst. destruct t; [congruence | simpl in Hst; lia].
Qed.

End StringFacts.

(** The text of a UUID always has 36 characters. *)
Lemma uuid_to_str_length (i : Z) : String.length (UUID.to_str i) = 36.
Proof.
  unfold UUID.to_str, PyStr.take, PyStr.slice, PyStr.from.
  pose proof (length_hex_fixed i 32) as Hlen.
  repeat rewrite length_append.
  repeat rewrite length_substring by (rewrite Hlen; simpl; lia).
  rewrite Hlen. reflexivity.
Qed.

Lemma uuid_to_str_nonempty (i : Z) : UUID.to_str i <> "".
Proof.
  intros H. pose proof (uuid_to_str_length i) as Hlen.
  rewrite H in Hlen. discriminate Hlen.
Qed.

(** The version nibble of a generated UUID is 4 and its variant bits are
    binary 10, whatever the random bits were. *)
Lemma uuid_of_random_version (r : Z) :
  Z.land (Z.shiftr (UUID.of_random r) 76) 15 = 4%Z
  /\ Z.land (Z.shiftr (UUID.of_random r) 62) 3 = 2%Z.
Proof.
  unfold UUID.of_random.
  split; apply Z.bits_inj'; intros n Hn;
    rewrite Z.land_spec, Z.shiftr_spec by lia;
    rewrite Z.lor_spec, Z.land_spec, Z.lor_spec, Z.land_spec by lia.
  - destruct (Z.ltb_spec n 4) as [Hlt|Hge].
    + assert (n = 0 \/ n = 1 \/ n = 2 \/ n = 3)%Z as Hcases by lia.
      destruct Hcases as [-> | [-> | [-> | ->]]]; cbn;
        rewrite ?andb_false_r, ?orb_true_r, ?orb_false_r; reflexivity.
    + rewrite (Z.bits_above_log2 15 n), (Z.bits_above_log2 4 n)
        by (cbn; lia).
      apply andb_false_r.
  - destruct (Z.ltb_spec n 2) as [Hlt|Hge].
    + assert (n = 0 \/ n = 1)%Z as Hcases by lia.
      destruct Hcases as [-> | ->]; cbn;
        rewrite ?andb_false_r, ?orb_true_r, ?orb_false_r; reflexivity.
    + rewrite (Z.bits_above_log2 3 n), (Z.bits_above_log2 2 n)
        by (cbn; lia).
      apply andb_false_r.
Qed.

(** ** What each handler returns and what it does to the world *)

(** The configured chain stops at [add_logger_name]: the call raises,
    nothing is printed and the clock is not read. *)
Lemma logger_info_raises (ev : string) (kv : list (string * PyValue))
    (w : World) :
  logger_info ev kv w = (Raised AttributeError, w).
Proof. reflexivity. Qed.

Section HandlerEquations.

Variable w : World.

Lemma health_check_reply :
  fst (health_check w)
  = Returned {| status := "healthy";
                timestamp := isoformat (utc_clock w (clock_reads w)) +:+ "Z";
                version := "0.1.0" |}.
Proof. reflexivity. Qed.

Lemma detect_objects_raises (request : DetectionRequest) :
  detect_objects request w = (Raised AttributeError, w).
Proof. reflexivity. Qed.

Lemma analyze_stream_raises (cam url : string) :
  analyze_stream cam url w = (Raised AttributeError, w).
Proof. reflexivity. Qed.

(** A call leaves both oracles as they were and only appends to the log. *)
Lemma dispatch_frame (c : Call) :
  utc_clock (snd (dispatch c w)) = utc_clock w
  /\ urandom (snd (dispatch c w)) = urandom w
  /\ exists lines, log (snd (dispatch c w)) = (log w ++ lines)%list.
Proof.
  destruct c; cbn; repeat split; exists []; now rewrite app_nil_r.
Qed.

(** The redacted reply is a function of the call alone. *)
Lemma dispatch_redacted (c : Call) (w' : World) :
  redact (fst (dispatch c w')) = redact (fst (dispatch c w)).
Proof. destruct c; reflexivity. Qed.

End HandlerEquations.

Lemma serve_frame (cs : list Call) : forall w,
  utc_clock (snd (serve cs w)) = utc_clock w
  /\ urandom (snd (serve cs w)) = urandom w
  /\ exists lines, log (snd (serve cs w)) = (log w ++ lines)%list.
Proof.
  induction cs as [|c rest IH]; intros w.
  - cbn. repeat split. exists []. now rewrite app_nil_r.
  - destruct (dispatch_frame w c) as (Hc & Hu & l1 & Hl).
    destruct (IH (snd (dispatch c w))) as (Hc' & Hu' & l2 & Hl').
    assert (snd (serve (c :: rest) w) = snd (serve rest (snd (dispatch c w))))
      as Hstep.
    { cbn [serve]. unfold bind, ret.
      destruct (dispatch c w) as [r w1]. cbn.
      destruct (serve rest w1) as [rs w2]. reflexivity. }
    rewrite Hstep, Hc', Hu', Hl', Hc, Hu, Hl.
    repeat split. exists (l1 ++ l2)%list. now rewrite app_assoc.
Qed.

(** ** The detect route *)

(** C1: a single-frame detection request that carries an inline image
    and asks for any labels (the 1x1-pixel image and the label person
    among them) does not get the success response of the claim: the
    handler raises AttributeError at its log call, before it draws the
    frame id, and leaves the world as it was. *)
Theorem detect_inline_image_raises
    (img : string) (cam : option string) (labels : list string) (w : World) :
  detect_objects (DetectionRequest_init None (Some img) cam (Some labels)) w
  = (Raised AttributeError, w).
Proof. apply detect_objects_raises. Qed.

(** The example of the spec: a 1x1-pixel image and the label person. *)
Example detect_pixel_person :
  detect_objects
    (DetectionRequest_init None (Some pixel_png_base64) None
                           (Some ["person"])) world0
  = (Raised AttributeError, world0).
Proof. reflexivity. Qed.

(** The confidence predicate tells scores inside the unit interval from
    scores outside it, and the box predicate boxes inside the frame from
    boxes that stick out. *)
Example confidence_ok_discriminates :
  confidence_ok (sample_detection 0.5%float []) = true
  /\ confidence_ok (sample_detection 1.5%float []) = false
  /\ confidence_ok (sample_detection (-0.25)%float []) = false.
Proof. repeat split. Qed.

Example bbox_within_discriminates :
  bbox_within 640 480 (sample_detection 0.5 [10; 20; 100; 50]%float) = true
  /\ bbox_within 640 480 (sample_detection 0.5 [600; 20; 100; 50]%float) = false
  /\ bbox_within 640 480 (sample_detection 0.5 [-1; 20; 100; 50]%float) = false
  /\ bbox_within 640 480 (sample_detection 0.5 [10; 20; 100]%float) = false.
Proof. repeat split. Qed.

(** C5: every detection that a call of the detect operation hands back
    has a confidence in the closed interval from 0.0 to 1.0.  (No call
    hands back a detection.) *)
Theorem returned_confidence_in_unit_interval
    (request : DetectionRequest) (w : World) :
  Forall (fun d => confidence_ok d = true)
         (returned_detections (fst (detect_objects request w))).
Proof. rewrite detect_objects_raises. constructor. Qed.

(** C6: every detection that a call of the detect operation hands back
    has a bounding box (x, y, width, height) with 0 <= x, 0 <= y,
    x + width <= frame width and y + height <= frame height, whatever
    the size of the frame.  (No call hands back a detection.) *)
Theorem returned_bbox_within_frame
    (frame_w frame_h : float) (request : DetectionRequest) (w : World) :
  Forall (fun d => bbox_within frame_w frame_h d = true)
         (returned_detections (fst (detect_objects request w))).
Proof. rewrite detect_objects_raises. constructor. Qed.

(** C8: the detect operation does not return for any request: whatever
    the image fields, the camera id and the labels, the call raises
    AttributeError at its log call; no frame id is drawn, no line is
    written and no response is built. *)
Theorem detect_objects_always_raises (request : DetectionRequest) (w : World) :
  fst (detect_objects request w) = Raised AttributeError
  /\ snd (detect_objects request w) = w
  /\ urandom_reads (snd (detect_objects request w)) = urandom_reads w
  /\ log (snd (detect_objects request w)) = log w.
Proof. now rewrite detect_objects_raises. Qed.

(** C7, as the code has it: a detection request carries a plain list of
    labels, the default list (person, vehicle, weapon; not empty, no
    repeats) when the caller gives none and otherwise the caller's list
    unchanged, empty or with repeats as it may be; the detect operation
    rejects no request for its labels: its outcome is the same for every
    label list and is never a ValidationError. *)
Theorem detect_never_rejects_labels
    (url b64 cam : option string) (labels : option (list string))
    (w : World) :
  let request := DetectionRequest_init url b64 cam labels in
  detection_types request = default (["person"; "vehicle"; "weapon"]) labels
  /\ has_duplicate default_detection_types = false
  /\ default_detection_types <> []
  /\ fst (detect_objects request w) <> Raised ValidationError
  /\ forall labels',
       detect_objects (DetectionRequest_init url b64 cam labels') w
       = detect_objects request w.
Proof.
  cbn zeta. split; [destruct labels; reflexivity|].
  split; [reflexivity|]. split; [discriminate|].
  rewrite detect_objects_raises. split; [discriminate|].
  intros labels'. now rewrite detect_objects_raises.
Qed.

(** C7 counterexample: a request whose label list is empty and a request
    whose label list names person twice both exist, and the detect
    operation treats each exactly as it treats the request with the
    default labels: neither is rejected as invalid. *)
Lemma detect_takes_empty_and_repeated_labels :
  let no_labels :=
    DetectionRequest_init None (Some pixel_png_base64) None (Some []) in
  let twice :=
    DetectionRequest_init None (Some pixel_png_base64) None
                          (Some ["person"; "person"]) in
  let plain := DetectionRequest_init None (Some pixel_png_base64) None None in
  (detection_types no_labels = []
   /\ detect_objects no_labels world0 = detect_objects plain world0
   /\ fst (detect_objects no_labels world0) <> Raised ValidationError)
  /\ (has_duplicate (detection_types twice) = true
      /\ detect_objects twice world0 = detect_objects plain world0
      /\ fst (detect_objects twice world0) <> Raised ValidationError).
Proof.
  cbn zeta. rewrite !detect_objects_raises.
  repeat split; discriminate.
Qed.

(** ** The analyze-stream route *)

(** C9: the start-stream operation does not return for any camera id and
    stream URL: the call raises AttributeError at its log call, so no
    success dictionary with the camera id and the fixed message is built;
    the exception is neither ConflictError nor ValidationError, and the
    world is left as it was. *)
Theorem analyze_stream_always_raises (cam url : string) (w : World) :
  fst (analyze_stream cam url w) = Raised AttributeError
  /\ snd (analyze_stream cam url w) = w
  /\ fst (analyze_stream cam url w) <> Raised ConflictError
  /\ fst (analyze_stream cam url w) <> Raised ValidationError.
Proof. rewrite analyze_stream_raises. repeat split; discriminate. Qed.

(** C2, as the code has it: for every camera id, a start-stream request
    for a camera id that was started before and never stopped, whatever
    calls came in between, is never answered with ConflictError: no
    session is recorded, and the answer is the one the same request gets
    when nothing was started before. *)
Theorem analyze_stream_keeps_no_session
    (cam url1 url2 : string) (between : list Call) (w : World) :
  let started := snd (analyze_stream cam url1 w) in
  let later := snd (serve between started) in
  fst (analyze_stream cam url2 later) <> Raised ConflictError
  /\ fst (analyze_stream cam url2 later) = fst (analyze_stream cam url2 w).
Proof.
  cbn zeta. rewrite !analyze_stream_raises. split; [discriminate | reflexivity].
Qed.

(** C2 counterexample: of two start requests for cam-1, one right after
    the other, the second is not answered with ConflictError; it gets the
    answer the first one got. *)
Lemma analyze_stream_twice_no_conflict :
  let url := "rtsp://10.0.0.7/live" in
  let first := analyze_stream "cam-1" url world0 in
  let second := analyze_stream "cam-1" url (snd first) in
  fst second <> Raised ConflictError
  /\ fst second = fst first.
Proof.
  cbn zeta. rewrite !analyze_stream_raises. split; [discriminate | reflexivity].
Qed.

(** ** The health route *)

(** C4, as the code has it: the health operation returns a record with
    status, timestamp and version in which the status is always healthy
    and the version always 0.1.0, after any calls whatever; the timestamp
    is the current UTC time in ISO format followed by Z.  It reports that
    the process is alive and nothing about the load of a pipeline. *)
Theorem health_check_reports_liveness (before : list Call) (w : World) :
  let now := snd (serve before w) in
  exists h,
    fst (health_check now) = Returned h
    /\ status h = "healthy"
    /\ version h = "0.1.0"
    /\ timestamp h = isoformat (utc_clock w (clock_reads now)) +:+ "Z".
Proof.
  cbn zeta. eexists. rewrite health_check_reply.
  destruct (serve_frame before w) as (Hclock & _ & _).
  rewrite Hclock. repeat split.
Qed.

(** C4 counterexample: after a burst of unanswered work the status is
    still healthy, and there is no world at all in which the health
    operation reports another status. *)
Lemma health_check_never_degraded :
  (exists h, fst (health_check (snd (serve burst world0))) = Returned h
             /\ status h = "healthy")
  /\ ~ (exists w h, fst (health_check w) = Returned h
                    /\ status h <> "healthy").
Proof.
  split.
  - eexists. rewrite health_check_reply. split; reflexivity.
  - intros (w & h & Hret & Hstatus). rewrite health_check_reply in Hret.
    injection Hret as <-. now apply Hstatus.
Qed.

Example health_check_at_new_year :
  fst (health_check world0)
  = Returned {| status := "healthy"; timestamp := "2025-01-01T00:00:00Z";
                version := "0.1.0" |}.
Proof. vm_compute. reflexivity. Qed.

Example health_check_with_microseconds :
  fst (health_check (snd (health_check world0)))
  = Returned {| status := "healthy";
                timestamp := "2024-11-05T13:07:42.001500Z";
                version := "0.1.0" |}.
Proof. vm_compute. reflexivity. Qed.

(** ** No state between calls *)

(** C10: no operation keeps state of the service: a call leaves the clock
    and the entropy source as they were and only appends log lines, and
    the reply to any call, apart from the fresh frame id and the current
    timestamp, is the same after any sequence of earlier calls as before
    it; in particular the same call made twice gives replies that agree
    in every other field. *)
Theorem replies_independent_of_history
    (history : list Call) (c : Call) (w : World) :
  let after := snd (serve history w) in
  redact (fst (dispatch c after)) = redact (fst (dispatch c w))
  /\ redact (fst (dispatch c (snd (dispatch c w))))
     = redact (fst (dispatch c w))
  /\ utc_clock after = utc_clock w
  /\ urandom after = urandom w
  /\ exists lines, log after = (log w ++ lines)%list.
Proof.
  cbn zeta. split; [apply dispatch_redacted|].
  split; [apply dispatch_redacted|].
  apply serve_frame.
Qed.

(** Redaction hides nothing but the two fresh fields: the rest of a health
    reply stays, and replies of different routes stay different. *)
Example redact_keeps_the_rest :
  redact (fst (dispatch Health world0))
  = HealthReply (Returned {| status := "healthy"; timestamp := "";
                             version := "0.1.0" |})
  /\ redact (fst (dispatch Health world0))
     <> redact (fst (dispatch (AnalyzeStream "cam-1" "a") world0)).
Proof. split; [reflexivity | discriminate]. Qed.

(** ** Stopping a stream session *)

Section StopSession.

Import SessionManager.

Lemma stopSession_succeeds (cam : string) (reg : gmap string StreamSession) :
  fst (stopSession cam reg) = Returned true.
Proof.
  unfold stopSession. destruct (reg !! cam) as [s|]; [|reflexivity].
  destruct (state s); reflexivity.
Qed.

(** After a stop the camera has no session or a stopped one. *)
Lemma stopSession_stops (cam : string) (reg : gmap string StreamSession) :
  match snd (stopSession cam reg) !! cam with
  | Some s => state s = Stopped
  | None => True
  end.
Proof.
  unfold stopSession. destruct (reg !! cam) as [s|] eqn:Hlook.
  - destruct (state s) eqn:Hstate; cbn;
      rewrite ?lookup_insert_eq, ?Hlook; done.
  - cbn. now rewrite Hlook.
Qed.

Lemma stopSession_stopped (cam : string) (s : StreamSession)
    (reg : gmap string StreamSession) :
  reg !! cam = Some s -> state s = Stopped ->
  stopSession cam reg = (Returned true, reg).
Proof. intros Hlook Hstate. unfold stopSession. now rewrite Hlook, Hstate. Qed.

End StopSession.

(** C3: the stop-stream operation is idempotent: for every camera id,
    stopping twice in a row succeeds both times and the second call
    changes nothing, and stopping a session that is already stopped
    succeeds and changes nothing. *)
Theorem stop_stream_idempotent
    (cam : string) (reg : gmap string SessionManager.StreamSession) :
  let once := SessionManager.stopSession cam reg in
  let twice := SessionManager.stopSession cam (snd once) in
  (fst once = Returned true
   /\ fst twice = Returned true
   /\ snd twice = snd once)
  /\ forall s,
       reg !! cam = Some s ->
       SessionManager.state s = SessionManager.Stopped ->
       SessionManager.stopSession cam reg = (Returned true, reg).
Proof.
  cbn zeta. split; [|intros s; apply stopSession_stopped].
  split; [apply stopSession_succeeds|].
  split; [apply stopSession_succeeds|].
  pose proof (stopSession_stops cam reg) as Hstops.
  destruct (snd (SessionManager.stopSession cam reg) !! cam) as [s|] eqn:Hlook.
  - now rewrite (stopSession_stopped cam s _ Hlook Hstops).
  - unfold SessionManager.stopSession at 1. now rewrite Hlook.
Qed.

(** A running camera with three frames in flight, stopped twice: both
    calls succeed, the first drains and releases the session, the second
    finds it stopped and leaves the registry alone. *)
Lemma stop_stream_idempotent_running :
  let once := SessionManager.stopSession "cam-1" one_camera in
  let twice := SessionManager.stopSession "cam-1" (snd once) in
  (fst once = Returned true /\ fst twice = Returned true
   /\ snd twice = snd once)
  /\ snd once !! "cam-1"
     = Some (SessionManager.release (SessionManager.drain running_session))
  /\ SessionManager.stopSession "cam-1" (snd once) = (Returned true, snd once).
Proof.
  cbn zeta.
  assert (snd (SessionManager.stopSession "cam-1" one_camera) !! "cam-1"
          = Some (SessionManager.release (SessionManager.drain running_session)))
    as Hlook.
  { unfold SessionManager.stopSession, one_camera.
    rewrite lookup_insert_eq. cbn. apply lookup_insert_eq. }
  split; [exact (proj1 (stop_stream_idempotent "cam-1" one_camera))|].
  split; [exact Hlook|].
  exact (proj2 (stop_stream_idempotent "cam-1"
                  (snd (SessionManager.stopSession "cam-1" one_camera)))
               _ Hlook eq_refl).
Defined.

(** ** What the detect operation looks at *)



(** ** Correlation ids *)

Section CorrelationId.

Import Http.

Variable request : Request.
Variable call_next : Request -> IO Response.
Variable w : World.

(** The id the middleware settles on. *)
Let chosen : string :=
  default (UUID.to_str (UUID.of_random (urandom w (urandom_reads w))))
          (headers request !! "x-correlation-id").

Lemma correlation_id_middleware_run :
  correlation_id_middleware request call_next w
  = (set_header "x-correlation-id" chosen
       (fst (call_next (set_correlation_id chosen request) (snd (uuid4 w)))),
     snd (call_next (set_correlation_id chosen request) (snd (uuid4 w)))).
Proof.
  unfold correlation_id_middleware, bind, ret, chosen. cbn.
  now destruct (call_next _ _).
Qed.

Lemma correlation_id_echo_state :
  body (fst (correlation_id_middleware request echo_state w))
  = default (UUID.to_str (UUID.of_random (urandom w (urandom_reads w))))
            (headers request !! "x-correlation-id").
Proof.
  unfold correlation_id_middleware, bind, ret, echo_state, set_correlation_id.
  cbn. now rewrite lookup_insert_eq.
Qed.

End CorrelationId.

(** X7: a request that brings an x-correlation-id header gets that very
    value back in the x-correlation-id header of the response, whatever
    the endpoint answered, and the endpoint finds the same value in
    request.state.correlation_id. *)
Theorem correlation_id_echoed
    (request : Http.Request) (call_next : Http.Request -> IO Http.Response)
    (w : World) (cid : string) :
  Http.headers request !! "x-correlation-id" = Some cid ->
  Http.response_headers
    (fst (Http.correlation_id_middleware request call_next w))
    !! "x-correlation-id" = Some cid
  /\ Http.body (fst (Http.correlation_id_middleware request Http.echo_state w))
     = cid.
Proof.
  intros Hgiven. split.
  - rewrite correlation_id_middleware_run, Hgiven. cbn. apply lookup_insert_eq.
  - rewrite correlation_id_echo_state, Hgiven. reflexivity.
Qed.

Lemma correlation_id_echoed_sample :
  Http.response_headers
    (fst (Http.correlation_id_middleware traced_request Http.echo_state world0))
    !! "x-correlation-id" = Some "req-42"
  /\ Http.body
       (fst (Http.correlation_id_middleware traced_request Http.echo_state
                                            world0))
     = "req-42".
Proof.
  apply (correlation_id_echoed traced_request Http.echo_state world0 "req-42").
  apply lookup_insert_eq.
Defined.

(** X8: a request without an x-correlation-id header gets a fresh one: the
    36-character text of the UUID made from the next reading of the
    entropy source.  The response carries it in its x-correlation-id
    header and the endpoint finds the same text in
    request.state.correlation_id. *)
Theorem correlation_id_generated
    (request : Http.Request) (call_next : Http.Request -> IO Http.Response)
    (w : World) :
  Http.headers request !! "x-correlation-id" = None ->
  let cid := UUID.to_str (UUID.of_random (urandom w (urandom_reads w))) in
  Http.response_headers
    (fst (Http.correlation_id_middleware request call_next w))
    !! "x-correlation-id" = Some cid
  /\ Http.body (fst (Http.correlation_id_middleware request Http.echo_state w))
     = cid
  /\ String.length cid = 36.
Proof.
  intros Habsent. cbn zeta. split; [|split].
  - rewrite correlation_id_middleware_run, Habsent. cbn. apply lookup_insert_eq.
  - rewrite correlation_id_echo_state, Habsent. reflexivity.
  - apply uuid_to_str_length.
Qed.

Lemma correlation_id_generated_sample :
  let cid := UUID.to_str (UUID.of_random (urandom world0 0)) in
  Http.response_headers
    (fst (Http.correlation_id_middleware untraced_request Http.echo_state
                                         world0))
    !! "x-correlation-id" = Some cid
  /\ Http.body
       (fst (Http.correlation_id_middleware untraced_request Http.echo_state
                                            world0))
     = cid
  /\ String.length cid = 36.
Proof.
  apply (correlation_id_generated untraced_request Http.echo_state world0).
  unfold untraced_request. cbn.
  rewrite lookup_insert_ne by discriminate. apply lookup_empty.
Defined.

(** X9: the middleware changes nothing else: the response keeps the
    status, the body and every other header the endpoint gave it, the
    request reaches the endpoint with its method, path and headers
    unchanged, and the middleware writes no log line and reads no clock.
    It does draw one UUID from the entropy source before the endpoint
    runs, on every request, also when the request brought its own id. *)
Theorem correlation_id_middleware_frame
    (request : Http.Request) (call_next : Http.Request -> IO Http.Response)
    (w : World) :
  let cid :=
    default (UUID.to_str (UUID.of_random (urandom w (urandom_reads w))))
            (Http.headers request !! "x-correlation-id") in
  let passed := Http.set_correlation_id cid request in
  let before := snd (uuid4 w) in
  let inner := call_next passed before in
  let outer := Http.correlation_id_middleware request call_next w in
  (Http.status_code (fst outer) = Http.status_code (fst inner)
   /\ Http.body (fst outer) = Http.body (fst inner)
   /\ forall name, name <> "x-correlation-id" ->
        Http.response_headers (fst outer) !! name
        = Http.response_headers (fst inner) !! name)
  /\ (Http.method passed = Http.method request
      /\ Http.path passed = Http.path request
      /\ Http.headers passed = Http.headers request
      /\ forall key, key <> "correlation_id" ->
           Http.state passed !! key = Http.state request !! key)
  /\ snd outer = snd inner
  /\ urandom_reads before = S (urandom_reads w)
  /\ clock_reads before = clock_reads w
  /\ log before = log w.
Proof.
  cbn zeta. rewrite correlation_id_middleware_run. cbn [fst snd].
  split; [|split; [|repeat split]].
  - repeat split. intros name Hname. cbn. now apply lookup_insert_ne.
  - repeat split. intros key Hkey. cbn. now apply lookup_insert_ne.
Qed.

(** ** Configuration *)

Section SplitJoin.

Import Config.

Lemma split_comma_nonempty (s : string) : split_comma s <> [].
Proof.
  destruct s as [|c rest]; cbn; [discriminate|].
  destruct (Ascii.eqb c ","); [discriminate|].
  destruct (split_comma rest); discriminate.
Qed.

Lemma join_comma_cons_char (c : ascii) (part : string) (parts : list string) :
  join_comma (String c part :: parts) = String c (join_comma (part :: parts)).
Proof. destruct parts; reflexivity. Qed.

Lemma join_split_comma (s : string) : join_comma (split_comma s) = s.
Proof.
  induction s as [|c rest IH]; [reflexivity|]. cbn [split_comma].
  destruct (Ascii.eqb_spec c ",") as [->|Hc].
  - pose proof (split_comma_nonempty rest) as Hne.
    destruct (split_comma rest) as [|part parts]; [congruence|].
    cbn [join_comma]. cbn. now rewrite <- IH.
  - pose proof (split_comma_nonempty rest) as Hne.
    destruct (split_comma rest) as [|part parts]; [congruence|].
    now rewrite join_comma_cons_char, IH.
Qed.

Lemma split_comma_no_comma (s : string) :
  Forall (fun part => has_comma part = false) (split_comma s).
Proof.
  induction s as [|c rest IH]; [repeat constructor|]. cbn [split_comma].
  destruct (Ascii.eqb c ",") eqn:Hc.
  - constructor; [reflexivity | exact IH].
  - destruct (split_comma rest) as [|part parts]; [repeat constructor; cbn; now rewrite Hc|].
    inversion IH as [|? ? Hpart Hparts]; subst.
    constructor; [cbn; now rewrite Hc, Hpart | exact Hparts].
Qed.

Lemma split_comma_length (s : string) :
  length (split_comma s) = S (count_commas s).
Proof.
  induction s as [|c rest IH]; [reflexivity|]. cbn [split_comma count_commas].
  destruct (Ascii.eqb c ","); cbn [length]; [now rewrite IH|].
  destruct (split_comma rest); cbn in *; lia.
Qed.

End SplitJoin.

(** X10: the allowed CORS origins are the pieces of CORS_ORIGINS between
    its commas, or the single origin * when the variable is unset: there
    is one more origin than there are commas (so never none), no origin
    has a comma in it, and joining the origins with commas gives the
    configured text back.  Nothing is trimmed or dropped. *)
Theorem cors_allow_origins_split (env : gmap string string) :
  let configured := Config.getenv env "CORS_ORIGINS" "*" in
  let origins := Config.cors_allow_origins env in
  length origins = S (Config.count_commas configured)
  /\ Forall (fun origin => Config.has_comma origin = false) origins
  /\ Config.join_comma origins = configured
  /\ (env !! "CORS_ORIGINS" = None -> origins = ["*"]).
Proof.
  cbn zeta. unfold Config.cors_allow_origins.
  split; [apply split_comma_length|].
  split; [apply split_comma_no_comma|].
  split; [apply join_split_comma|].
  intros Hunset. unfold Config.getenv. now rewrite Hunset.
Qed.

(** Spaces after a comma stay in the origin, an empty variable gives one
    empty origin, and a trailing comma gives an empty last origin. *)
Example cors_allow_origins_edges :
  Config.cors_allow_origins
    (<["CORS_ORIGINS" := "https://a.example, https://b.example"]> ∅)
  = ["https://a.example"; " https://b.example"]
  /\ Config.cors_allow_origins (<["CORS_ORIGINS" := ""]> ∅) = [""]
  /\ Config.cors_allow_origins (<["CORS_ORIGINS" := "https://a.example,"]> ∅)
     = ["https://a.example"; ""].
Proof. repeat split; vm_compute; reflexivity. Qed.

Lemma lower_char_cases (c : ascii) :
  (Config.lower_char c = "t"%char <-> c = "t"%char \/ c = "T"%char)
  /\ (Config.lower_char c = "r"%char <-> c = "r"%char \/ c = "R"%char)
  /\ (Config.lower_char c = "u"%char <-> c = "u"%char \/ c = "U"%char)
  /\ (Config.lower_char c = "e"%char <-> c = "e"%char \/ c = "E"%char).
Proof.
  destruct c as [[] [] [] [] [] [] [] []]; vm_compute;
    repeat split; intros H; try discriminate H; auto;
    destruct H as [H|H]; discriminate H.
Qed.

(** X11: auto-reload is on exactly when RELOAD is unset or spells true in
    any mix of upper and lower case (true, True, TRUE, tRuE, ...); every
    other value, 1 and yes and the empty string included, turns it
    off. *)
Theorem uvicorn_reload_spellings (env : gmap string string) :
  Config.uvicorn_reload env = true
  <-> env !! "RELOAD" = None
      \/ exists a b c d : ascii,
           env !! "RELOAD" = Some (String a (String b (String c (String d ""))))
           /\ (a = "t" \/ a = "T")%char /\ (b = "r" \/ b = "R")%char
           /\ (c = "u" \/ c = "U")%char /\ (d = "e" \/ d = "E")%char.
Proof.
  unfold Config.uvicorn_reload, Config.getenv. rewrite String.eqb_eq.
  destruct (env !! "RELOAD") as [value|]; cbn [default].
  - split.
    + intros Hlower. right.
      destruct value as [|a [|b [|c [|d [|x rest]]]]]; try discriminate Hlower.
      cbn in Hlower. injection Hlower as Ha Hb Hc Hd.
      exists a, b, c, d. split; [reflexivity|].
      repeat split.
      * now apply (lower_char_cases a).
      * now apply (lower_char_cases b).
      * now apply (lower_char_cases c).
      * now apply (lower_char_cases d).
    + intros [Hnone|(a & b & c & d & Hvalue & Ha & Hb & Hc & Hd)];
        [discriminate Hnone|].
      injection Hvalue as ->. cbn.
      apply (lower_char_cases a) in Ha. apply (lower_char_cases b) in Hb.
      apply (lower_char_cases c) in Hc. apply (lower_char_cases d) in Hd.
      now rewrite Ha, Hb, Hc, Hd.
  - split; [now left | reflexivity].
Qed.

Example uvicorn_reload_edges :
  Config.uvicorn_reload ∅ = true
  /\ Config.uvicorn_reload (<["RELOAD" := "True"]> ∅) = true
  /\ Config.uvicorn_reload (<["RELOAD" := "1"]> ∅) = false
  /\ Config.uvicorn_reload (<["RELOAD" := "yes"]> ∅) = false
  /\ Config.uvicorn_reload (<["RELOAD" := ""]> ∅) = false
  /\ Config.uvicorn_reload (<["RELOAD" := "false"]> ∅) = false.
Proof. repeat split; vm_compute; reflexivity. Qed.

(** ** Logging as configured *)



(** X6: the startup hook and the shutdown hook both raise AttributeError
    at their log call and write no line: the log never gets the lines
    ai_service_starting and ai_service_shutting_down. *)
Theorem startup_and_shutdown_raise (w : World) :
  startup_event w = (Raised AttributeError, w)
  /\ shutdown_event w = (Raised AttributeError, w).
Proof. split; apply logger_info_raises. Qed.

(** ** The text of a UUID *)

Lemma hex_fixed_step (k : nat) (v : Z) :
  PyStr.hex_fixed (S k) v = String (uuid_nibble v k) (PyStr.hex_fixed k v).
Proof. reflexivity. Qed.

Lemma uuid_to_str_text (v : Z) : UUID.to_str v = uuid_text (uuid_nibble v).
Proof.
  unfold UUID.to_str, PyStr.take, PyStr.slice, PyStr.from.
  rewrite !hex_fixed_step. change (PyStr.hex_fixed 0 v) with "".
  generalize (uuid_nibble v). intros h. reflexivity.
Qed.

Lemma hexdigit_is_hex (n : Z) : is_hex_lower (PyStr.hexdigit n) = true.
Proof.
  destruct n as [|p|p]; try reflexivity.
  do 5 (try destruct p as [p|p|]; try reflexivity).
Qed.

(** The variant nibble of a generated UUID is 8, 9, 10 or 11. *)
Lemma uuid_of_random_variant (r : Z) :
  (8 <= Z.land (Z.shiftr (UUID.of_random r) 60) 15 <= 11)%Z.
Proof.
  pose proof (proj2 (uuid_of_random_version r)) as Hvar.
  revert Hvar. generalize (UUID.of_random r). intros v Hvar.
  replace (Z.shiftr v 62) with (Z.shiftr (Z.shiftr v 60) 2) in Hvar
    by (rewrite Z.shiftr_shiftr by lia; reflexivity).
  revert Hvar. generalize (Z.shiftr v 60). intros x Hvar.
  change 3%Z with (Z.ones 2) in Hvar. change 15%Z with (Z.ones 4).
  rewrite Z.land_ones in * by lia. rewrite Z.shiftr_div_pow2 in Hvar by lia.
  change (2 ^ 2)%Z with 4%Z in Hvar. change (2 ^ 4)%Z with 16%Z.
  Z.div_mod_to_equations. lia.
Qed.

Lemma uuid_version_char (r : Z) :
  uuid_nibble (UUID.of_random r) 19 = "4"%char.
Proof.
  unfold uuid_nibble. change (4 * Z.of_nat 19)%Z with 76%Z.
  now rewrite (proj1 (uuid_of_random_version r)).
Qed.

Lemma uuid_variant_char (r : Z) :
  let c := uuid_nibble (UUID.of_random r) 15 in
  (c = "8" \/ c = "9" \/ c = "a" \/ c = "b")%char.
Proof.
  cbn zeta. unfold uuid_nibble. change (4 * Z.of_nat 15)%Z with 60%Z.
  pose proof (uuid_of_random_variant r) as Hvar. revert Hvar.
  generalize (Z.land (Z.shiftr (UUID.of_random r) 60) 15). intros n Hn.
  assert (n = 8 \/ n = 9 \/ n = 10 \/ n = 11)%Z as Hcases by lia.
  destruct Hcases as [-> | [-> | [-> | ->]]]; cbn; auto.
Qed.

Lemma uuid_text_is_uuid4 (h : nat -> ascii) :
  (forall k, is_hex_lower (h k) = true) ->
  h 19 = "4"%char ->
  (h 15 = "8" \/ h 15 = "9" \/ h 15 = "a" \/ h 15 = "b")%char ->
  is_uuid4_text (uuid_text h) = true.
Proof.
  intros Hhex Hversion Hvariant.
  unfold is_uuid4_text, uuid_text. cbn. rewrite !Hhex, Hversion.
  destruct Hvariant as [-> | [-> | [-> | ->]]]; reflexivity.
Qed.

Lemma uuid4_to_str_is_uuid4 (r : Z) :
  is_uuid4_text (UUID.to_str (UUID.of_random r)) = true.
Proof.
  rewrite uuid_to_str_text. apply uuid_text_is_uuid4.
  - intros k. apply hexdigit_is_hex.
  - apply uuid_version_char.
  - apply uuid_variant_char.
Qed.

(** The check tells the text of a version-4 UUID from texts that only
    look like one. *)
Example is_uuid4_text_discriminates :
  is_uuid4_text "00000000-0000-4000-8000-000000000007" = true
  /\ is_uuid4_text "--------------4----8----------------" = false
  /\ is_uuid4_text "00000000-0000-1000-8000-000000000007" = false
  /\ is_uuid4_text "00000000-0000-4000-c000-000000000007" = false
  /\ is_uuid4_text "00000000-0000-4000-8000-00000000000G" = false
  /\ is_uuid4_text "00000000-0000-4000-8000-00000000000" = false
  /\ is_uuid4_text "00000000-0000-4000-8000-0000000000077" = false
  /\ is_uuid4_text "00000000-0000-4000-8000-00000000000A" = false.
Proof. repeat split. Qed.

(** X12: the correlation id the middleware generates for a request
    without an x-correlation-id header is the text of a version-4 UUID:
    36 characters, hyphens at positions 8, 13, 18 and 23, the digit 4 at
    position 14, one of 8, 9, a, b at position 19 and a lower-case
    hexadecimal digit at every other position. *)
Theorem generated_correlation_id_is_uuid4_text
    (request : Http.Request) (call_next : Http.Request -> IO Http.Response)
    (w : World) :
  Http.headers request !! "x-correlation-id" = None ->
  exists cid,
    Http.response_headers
      (fst (Http.correlation_id_middleware request call_next w))
      !! "x-correlation-id" = Some cid
    /\ is_uuid4_text cid = true.
Proof.
  intros Habsent. eexists. split.
  - rewrite correlation_id_middleware_run, Habsent. cbn. apply lookup_insert_eq.
  - apply uuid4_to_str_is_uuid4.
Qed.

Lemma generated_correlation_id_is_uuid4_text_sample :
  exists cid,
    Http.response_headers
      (fst (Http.correlation_id_middleware untraced_request Http.echo_state
                                           world0))
      !! "x-correlation-id" = Some cid
    /\ is_uuid4_text cid = true.
Proof.
  apply (generated_correlation_id_is_uuid4_text untraced_request
           Http.echo_state world0).
  unfold untraced_request. cbn.
  rewrite lookup_insert_ne by discriminate. apply lookup_empty.
Defined.

Lemma hexdigit_inj (a b : Z) :
  (0 <= a <= 15)%Z -> (0 <= b <= 15)%Z ->
  PyStr.hexdigit a = PyStr.hexdigit b -> a = b.
Proof.
  intros Ha Hb.
  assert (a = 0 \/ a = 1 \/ a = 2 \/ a = 3 \/ a = 4 \/ a = 5 \/ a = 6
          \/ a = 7 \/ a = 8 \/ a = 9 \/ a = 10 \/ a = 11 \/ a = 12
          \/ a = 13 \/ a = 14 \/ a = 15)%Z as Hcases by lia.
  assert (b = 0 \/ b = 1 \/ b = 2 \/ b = 3 \/ b = 4 \/ b = 5 \/ b = 6
          \/ b = 7 \/ b = 8 \/ b = 9 \/ b = 10 \/ b = 11 \/ b = 12
          \/ b = 13 \/ b = 14 \/ b = 15)%Z as Hcases' by lia.
  clear Ha Hb.
  repeat (destruct Hcases as [-> | Hcases]); try subst a;
    repeat (destruct Hcases' as [-> | Hcases']); try subst b;
    intros Heq; first [reflexivity | discriminate Heq].
Qed.

Lemma land_15_range (x : Z) : (0 <= Z.land x 15 <= 15)%Z.
Proof.
  change 15%Z with (Z.ones 4) at 1 2. rewrite Z.land_ones by lia.
  pose proof (Z.mod_pos_bound x (2 ^ 4)) as Hb. change (2 ^ 4)%Z with 16%Z in *.
  lia.
Qed.

(** The low [4 * d] bits of a number are fixed by its [d] low nibbles. *)
Lemma nibbles_determine (i j : Z) (d : nat) :
  (forall k, k < d ->
     Z.land (Z.shiftr i (4 * Z.of_nat k)) 15
     = Z.land (Z.shiftr j (4 * Z.of_nat k)) 15) ->
  (i mod 2 ^ (4 * Z.of_nat d) = j mod 2 ^ (4 * Z.of_nat d))%Z.
Proof.
  intros Hnib. rewrite <- !Z.land_ones by lia.
  apply Z.bits_inj'. intros n Hn. rewrite !Z.land_spec.
  destruct (Z.ltb_spec n (4 * Z.of_nat d)) as [Hlow|Hhigh].
  - rewrite Z.ones_spec_low by lia. rewrite !andb_true_r.
    assert (0 <= n / 4)%Z as Hq by (apply Z.div_pos; lia).
    assert (0 <= n mod 4 < 4)%Z as Hr by (apply Z.mod_pos_bound; lia).
    assert (n = n mod 4 + 4 * (n / 4))%Z as Hsplit
        by (rewrite (Z.div_mod n 4) at 1 by lia; lia).
    assert (Z.to_nat (n / 4) < d) as Hk by lia.
    specialize (Hnib _ Hk). rewrite Z2Nat.id in Hnib by exact Hq.
    apply (f_equal (fun x => Z.testbit x (n mod 4))) in Hnib.
    rewrite !Z.land_spec, !Z.shiftr_spec in Hnib by lia.
    rewrite <- Hsplit in Hnib.
    assert (Z.testbit 15 (n mod 4) = true) as Hbit.
    { assert (n mod 4 = 0 \/ n mod 4 = 1 \/ n mod 4 = 2 \/ n mod 4 = 3)%Z
        as Hcases by lia.
      destruct Hcases as [-> | [-> | [-> | ->]]]; reflexivity. }
    now rewrite Hbit, !andb_true_r in Hnib.
  - rewrite Z.ones_spec_high by lia. now rewrite !andb_false_r.
Qed.

Lemma uuid_text_inj (h1 h2 : nat -> ascii) :
  uuid_text h1 = uuid_text h2 -> forall k, k < 32 -> h1 k = h2 k.
Proof.
  unfold uuid_text. intros Heq k Hk. injection Heq. intros.
  do 32 (destruct k as [|k]; [assumption|]). lia.
Qed.

(** A generated UUID fits in 128 bits. *)
Lemma uuid_of_random_mod (r : Z) :
  (UUID.of_random r mod 2 ^ 128 = UUID.of_random r)%Z.
Proof.
  rewrite <- Z.land_ones by lia. apply Z.bits_inj'. intros n Hn.
  rewrite Z.land_spec.
  destruct (Z.ltb_spec n 128) as [Hlow|Hhigh].
  - rewrite Z.ones_spec_low by lia. apply andb_true_r.
  - rewrite Z.ones_spec_high by lia. rewrite andb_false_r. symmetry.
    unfold UUID.of_random.
    rewrite Z.lor_spec, Z.land_spec, Z.lor_spec, Z.land_spec.
    rewrite Z.mod_pow2_bits_high by lia.
    assert (Z.log2 (Z.shiftl 32768 48) = 63)%Z as Hvariant by reflexivity.
    assert (Z.log2 (Z.shiftl 4 76) = 78)%Z as Hversion by reflexivity.
    rewrite (Z.bits_above_log2 (Z.shiftl 32768 48) n)
      by (rewrite ?Hvariant; first [lia | now vm_compute]).
    rewrite (Z.bits_above_log2 (Z.shiftl 4 76) n)
      by (rewrite ?Hversion; first [lia | now vm_compute]).
    reflexivity.
Qed.

Lemma uuid_to_str_inj (r1 r2 : Z) :
  UUID.to_str (UUID.of_random r1) = UUID.to_str (UUID.of_random r2) ->
  UUID.of_random r1 = UUID.of_random r2.
Proof.
  rewrite !uuid_to_str_text. intros Heq.
  pose proof (uuid_text_inj _ _ Heq) as Hchars.
  rewrite <- (uuid_of_random_mod r1), <- (uuid_of_random_mod r2).
  apply (nibbles_determine _ _ 32). intros k Hk.
  apply hexdigit_inj; try apply land_15_range.
  exact (Hchars k Hk).
Qed.

(** X13: printing the UUID as a correlation id loses nothing: two
    requests without an x-correlation-id header get the same generated
    id only if the UUIDs made for them are equal, so different UUIDs
    always show as different correlation ids. *)
Theorem equal_correlation_ids_equal_uuids
    (request1 request2 : Http.Request)
    (call_next1 call_next2 : Http.Request -> IO Http.Response)
    (w1 w2 : World) :
  Http.headers request1 !! "x-correlation-id" = None ->
  Http.headers request2 !! "x-correlation-id" = None ->
  Http.response_headers
    (fst (Http.correlation_id_middleware request1 call_next1 w1))
    !! "x-correlation-id"
  = Http.response_headers
      (fst (Http.correlation_id_middleware request2 call_next2 w2))
      !! "x-correlation-id" ->
  UUID.of_random (urandom w1 (urandom_reads w1))
  = UUID.of_random (urandom w2 (urandom_reads w2)).
Proof.
  intros Habsent1 Habsent2.
  rewrite !correlation_id_middleware_run, Habsent1, Habsent2. cbn.
  rewrite !lookup_insert_eq. intros Heq.
  apply uuid_to_str_inj. congruence.
Qed.

(** Two readings of the entropy source that differ in a bit [uuid4]
    overwrites give the same UUID and so the same correlation id. *)
Lemma equal_correlation_ids_equal_uuids_sample :
  UUID.of_random (urandom world_zero_bits (urandom_reads world_zero_bits))
  = UUID.of_random
      (urandom world_variant_bit (urandom_reads world_variant_bit)).
Proof.
  apply (equal_correlation_ids_equal_uuids
           untraced_request untraced_request Http.echo_state Http.echo_state
           world_zero_bits world_variant_bit).
  - unfold untraced_request. cbn.
    rewrite lookup_insert_ne by discriminate. apply lookup_empty.
  - unfold untraced_request. cbn.
    rewrite lookup_insert_ne by discriminate. apply lookup_empty.
  - rewrite !correlation_id_middleware_run. cbn.
    rewrite !lookup_insert_eq.
    unfold untraced_request. cbn.
    rewrite !lookup_insert_ne by discriminate. rewrite !lookup_empty.
    vm_compute. reflexivity.
Defined.
